(** * Ledger front end: upload controller and dashboard

    A shallow embedding of [frontend/finance-insight (3).jsx].

    JavaScript numbers are IEEE-754 binary64 values, so they are modelled by
    Rocq's primitive [float]; strings by [string]; arrays by [list]; the
    object [catMap], used as a map whose enumeration order matters, by an
    insertion-ordered association list.  React state is passed explicitly,
    and the asynchronous [handleAnalyze] runs in a small state-and-exception
    monad that carries a millisecond clock. *)

From Stdlib Require Import Floats String Ascii List Bool Arith NArith Lia.
From Stdlib Require Import DecimalString QArith Sorted Permutation.
Import ListNotations.

Close Scope Q_scope.

Set Warnings "-inexact-float".
Local Open Scope string_scope.
Local Open Scope list_scope.

(** ** The JavaScript notions the program relies on *)

Module Js.

Definition number := float.

(** ToBoolean on a number: [0], [-0] and [NaN] are falsy. *)
Definition truthy (n : number) : bool := negb (is_zero n || is_nan n).

(** [a || b] on numbers. *)
Definition or_else (a b : number) : number := if truthy a then a else b.

(** [v || b] where [v] may be [undefined]. *)
Definition or_default (v : option number) (b : number) : number :=
  match v with
  | Some a => or_else a b
  | None => b
  end.

(** ToBoolean on a string: only the empty string is falsy. *)
Definition nonempty (s : string) : bool := negb (String.eqb s "").

(** [a || b] on strings. *)
Definition str_or (a b : string) : string := if nonempty a then a else b.

(** [v || b] where the string [v] may be [undefined]. *)
Definition str_or_default (v : option string) (b : string) : string :=
  match v with
  | Some a => str_or a b
  | None => b
  end.

(** [String.prototype.endsWith]. *)
Definition endsWith (s suffix : string) : bool :=
  let n := String.length s in
  let k := String.length suffix in
  (k <=? n)%nat && String.eqb (substring (n - k) k s) suffix.

(** [l.reduce((s, t) => s + f(t), 0)]. *)
Definition sum_by {A} (f : A -> number) (l : list A) : number :=
  fold_left (fun s t => (s + f t)%float) l 0%float.

(** [Array.prototype.sort] with a comparator.  The sort is stable; a
    comparator result that is not positive (including [NaN]) leaves the
    two elements in their order.  For a consistent comparator every stable
    sort returns the list computed here. *)
Fixpoint insert {A} (cmp : A -> A -> number) (x : A) (sorted : list A) : list A :=
  match sorted with
  | [] => [x]
  | y :: rest =>
      if (0 <? cmp y x)%float then x :: y :: rest
      else y :: insert cmp x rest
  end.

Definition sort {A} (cmp : A -> A -> number) (l : list A) : list A :=
  fold_left (fun acc x => insert cmp x acc) l [].

(** An object literal used as a map: its own properties in insertion
    order, which is the order [Object.entries] lists them in.  Keys are
    taken to be ordinary names (category labels): neither array indices,
    which JavaScript enumerates first, nor names inherited from
    [Object.prototype]. *)
Definition object (V : Type) := list (string * V).

Fixpoint get {V} (o : object V) (k : string) : option V :=
  match o with
  | [] => None
  | (k', v) :: o' => if String.eqb k' k then Some v else get o' k
  end.

Fixpoint set {V} (o : object V) (k : string) (v : V) : object V :=
  match o with
  | [] => [(k, v)]
  | (k', v') :: o' =>
      if String.eqb k' k then (k', v) :: o' else (k', v') :: set o' k v
  end.

Definition entries {V} (o : object V) : list (string * V) := o.

(** Text assembled by template literals.  Conversions done by the host
    ([Number::toString], [toLocaleString], [toFixed]) are kept as tagged
    numbers; literal parts are strings. *)
Inductive piece :=
| Lit (s : string)        (* a string value *)
| Num (n : number)        (* `${n}` *)
| Locale0 (n : number)    (* n.toLocaleString("en-IN", {maximumFractionDigits: 0}) *)
| Fixed1 (n : number).    (* n.toFixed(1) *)

Definition text := list piece.

(** ToBoolean on an assembled text: a converted number is never empty. *)
Definition shown (t : text) : bool :=
  existsb (fun p => match p with Lit s => nonempty s | _ => true end) t.

Definition text_or (a b : text) : text := if shown a then a else b.

(** `${n}` for a non-negative integer such as [array.length] or a status. *)
Definition decimal (n : N) : string := NilZero.string_of_uint (N.to_uint n).

End Js.

Import Js.

(** ** Data model *)

Module Txn.
Record t := mk
  { date : string; desc : string; amount : number; type : string; category : string }.
End Txn.

Module IdleCash.
Record t := mk
  { monthly_burn : number;
    total_income : number;
    balance : number;
    investable_surplus : number;
    recommendation : text }.
End IdleCash.

Module Category.
Record t := mk
  { name : string; total : number; count : nat; pct_of_spend : number }.
End Category.

Module Subscription.
Record t := mk { desc : string; amount : number; date : string }.
End Subscription.

(** The Analysis Result: the JSON the backend answers with, or the object
    the dashboard builds from the mock rows. *)
Module Analysis.
Record t := mk
  { transactions : list Txn.t;
    transaction_count : nat;
    period : string;
    idle_cash : IdleCash.t;
    categories : list Category.t;
    subscriptions : list Subscription.t }.
End Analysis.

Definition MOCK_TRANSACTIONS : list Txn.t :=
  [ Txn.mk "2026-10-01" "Zomato Bangalore"      685    "Debit"  "Dining & Local Eats";
    Txn.mk "2026-10-02" "Salary Payout — Oct"   100253 "Credit" "Income";
    Txn.mk "2026-10-03" "Varalakshi Tiffins"    180    "Debit"  "Dining & Local Eats";
    Txn.mk "2026-10-04" "Zerodha Buy Order"     15000  "Debit"  "Investments";
    Txn.mk "2026-10-05" "Ola Cabs"              340    "Debit"  "Commute & Transport";
    Txn.mk "2026-10-06" "YouTube Premium"       189    "Debit"  "Subscriptions";
    Txn.mk "2026-10-07" "Rameshwaram Café"      520    "Debit"  "Dining & Local Eats";
    Txn.mk "2026-10-08" "BESCOM Electric Bill"  1200   "Debit"  "Utilities & Housing";
    Txn.mk "2026-10-09" "Amazon Order"          2340   "Debit"  "Shopping & Lifestyle";
    Txn.mk "2026-10-10" "Google One Storage"    130    "Debit"  "Subscriptions";
    Txn.mk "2026-10-11" "Namma Metro Recharge"  500    "Debit"  "Commute & Transport";
    Txn.mk "2026-10-12" "Swiggy Order"          430    "Debit"  "Dining & Local Eats";
    Txn.mk "2026-10-13" "LIC Premium"           4500   "Debit"  "Insurance & Protection";
    Txn.mk "2026-10-14" "Spotify Premium"       119    "Debit"  "Subscriptions";
    Txn.mk "2026-10-15" "Rapido Bike"           95     "Debit"  "Commute & Transport";
    Txn.mk "2026-10-16" "Blinkit Groceries"     1640   "Debit"  "Dining & Local Eats";
    Txn.mk "2026-10-17" "Groww MF SIP"          5000   "Debit"  "Investments";
    Txn.mk "2026-10-18" "Netflix Subscription"  649    "Debit"  "Subscriptions";
    Txn.mk "2026-10-19" "PhonePe UPI — Mom"     3000   "Debit"  "Family & Transfers";
    Txn.mk "2026-10-20" "BBMP Property Tax"     6200   "Debit"  "Utilities & Housing" ]%float.

(** [fmt(n)] (lines 61-63): the rupee sign followed by the en-IN
    rendering of [n]. *)
Definition fmt (n : number) : text := [Lit "₹"; Locale0 n].

(** The loop [debits.forEach(t => { catMap[t.category] =
    (catMap[t.category] || 0) + t.amount; })] started on [{}]. *)
Definition catMap_of (debits : list Txn.t) : object number :=
  fold_left
    (fun catMap t =>
       set catMap (Txn.category t)
         (or_default (get catMap (Txn.category t)) 0 + Txn.amount t)%float)
    debits [].

(** ** The standalone helper [computeAnalytics] (lines 65-78) *)

Module Analytics.
Record t := mk
  { totalBurn : number;
    totalIncome : number;
    balance : number;
    surplus : number;
    categories : list (string * number);   (* {name, value} *)
    subs : list Txn.t;
    subTotal : number }.
End Analytics.

Definition computeAnalytics (txns : list Txn.t) : Analytics.t :=
  let debits := filter (fun t => String.eqb (Txn.type t) "Debit") txns in
  let credits := filter (fun t => String.eqb (Txn.type t) "Credit") txns in
  let totalBurn := sum_by Txn.amount debits in
  let totalIncome := sum_by Txn.amount credits in
  let balance := (totalIncome - totalBurn)%float in
  let surplus := (balance - balance * 0.2)%float in
  let catMap := catMap_of debits in
  let categories :=
    sort (fun a b => (snd b - snd a)%float) (entries catMap) in
  let subs := filter (fun t => String.eqb (Txn.category t) "Subscriptions") debits in
  let subTotal := sum_by Txn.amount subs in
  Analytics.mk totalBurn totalIncome balance surplus categories subs subTotal.

Inductive Stage := UPLOAD | PARSING | CLASSIFYING | DONE.

(** The numeric codes of [const STAGE] (line 80). *)
Definition STAGE (s : Stage) : N :=
  match s with
  | UPLOAD => 0
  | PARSING => 1
  | CLASSIFYING => 2
  | DONE => 3
  end.

(** ** The dashboard *)

(** The object the dashboard summarises in place when it is given no data
    (lines 634-653: the body of the immediately-invoked arrow function,
    with its local [mock]). *)
Definition fallback (mock : list Txn.t) : Analysis.t :=
  let debits := filter (fun t => String.eqb (Txn.type t) "Debit") mock in
  let credits := filter (fun t => String.eqb (Txn.type t) "Credit") mock in
  let totalBurn := sum_by Txn.amount debits in
  let totalIncome := sum_by Txn.amount credits in
  let balance := (totalIncome - totalBurn)%float in
  let surplus := (balance * 0.8)%float in
  let catMap := catMap_of debits in
  Analysis.mk
    mock
    (length mock)
    "October 2026"
    (IdleCash.mk totalBurn totalIncome balance surplus
       [Lit "You have ₹"; Locale0 surplus;
        Lit " in investable surplus. Moving to a Liquid Fund could yield 7% annually vs 3% in savings."])
    (sort (fun a b => (Category.total b - Category.total a)%float)
       (map (fun '(name, total) =>
               Category.mk name total 1 (total / totalBurn * 100)%float)
          (entries catMap)))
    (map (fun t => Subscription.mk (Txn.desc t) (Txn.amount t) (Txn.date t))
       (filter (fun t => String.eqb (Txn.category t) "Subscriptions") mock)).

(** [data || (() => {...})()]: a received object is always truthy. *)
Definition analysis_of (data : option Analysis.t) : Analysis.t :=
  match data with
  | Some a => a
  | None => fallback MOCK_TRANSACTIONS
  end.

Module Kpi.
Record t := mk { label : string; value : text; note : string }.
End Kpi.

Module Insight.
Record t := mk { type : string; text : Js.text }.
End Insight.

(** One row of the category list: the name, the CSS width of the bar and
    the amount. *)
Module CatRow.
Record t := mk { name : string; width : text; amt : text }.
End CatRow.

(** What the dashboard displays (lines 655-687 and the rows of lines
    747-756); colours, icons and markup are left out. *)
Module View.
Record t := mk
  { period : string;
    transaction_count : nat;
    maxCat : number;
    subTotal : number;
    pieData : list (string * number);
    kpis : list Kpi.t;
    insights : list Insight.t;
    rows : list CatRow.t;
    table : list Txn.t }.
End View.

Definition Dashboard (data : option Analysis.t) : View.t :=
  let analysis := analysis_of data in
  let transactions := Analysis.transactions analysis in
  let categories := Analysis.categories analysis in
  let idle_cash := Analysis.idle_cash analysis in
  let subscriptions := Analysis.subscriptions analysis in
  let totalBurn := IdleCash.monthly_burn idle_cash in
  let totalIncome := IdleCash.total_income idle_cash in
  let balance := IdleCash.balance idle_cash in
  let surplus := IdleCash.investable_surplus idle_cash in
  let maxCat := or_default (option_map Category.total (nth_error categories 0)) 1%float in
  let subs := subscriptions in
  let subTotal := sum_by Subscription.amount subs in
  let pieData := map (fun c => (Category.name c, Category.total c)) categories in
  let kpis :=
    [ Kpi.mk "Monthly Income"     (fmt totalIncome) "All credits";
      Kpi.mk "Monthly Burn"       (fmt totalBurn)   "All debit transactions";
      Kpi.mk "Net Balance"        (fmt balance)     "Income minus burn";
      Kpi.mk "Investable Surplus" (fmt surplus)     "After 20% safety buffer" ] in
  let insights :=
    [ Insight.mk "Idle Cash Opportunity"
        (text_or (IdleCash.recommendation idle_cash)
           ([Lit "You have <strong>"] ++ fmt surplus ++
            [Lit "</strong> in investable surplus. Moving to a Liquid Fund could yield <strong>7% annually</strong> vs ~3% in savings."]));
      Insight.mk "Subscription Audit"
        ([Lit "Found <strong>"; Lit (decimal (N.of_nat (length subs)));
          Lit " active subscription";
          Lit (if (length subs =? 1)%nat then "" else "s");
          Lit "</strong> totalling <strong>"] ++ fmt subTotal ++
         [Lit "/month</strong>";
          Lit (if (length subs =? 0)%nat then ""
               else " — " ++ String.concat ", " (map Subscription.desc subs));
          Lit ". That's <strong>"] ++ fmt (subTotal * 12)%float ++
         [Lit "/year</strong>."]);
      Insight.mk "Top Spend Bucket"
        (match nth_error categories 0 with
         | Some c0 =>
             [Lit "<strong>"; Lit (Category.name c0);
              Lit "</strong> is your largest category at <strong>"] ++
             fmt (Category.total c0) ++
             [Lit "</strong> — <strong>"; Fixed1 (Category.pct_of_spend c0);
              Lit "%</strong> of total outgoings."]
         | None => [Lit "No spending patterns detected yet."]
         end) ] in
  let rows :=
    map (fun c =>
           CatRow.mk (Category.name c)
             [Num (Category.total c / maxCat * 100)%float; Lit "%"]
             (fmt (Category.total c)))
      categories in
  View.mk (Analysis.period analysis) (Analysis.transaction_count analysis)
    maxCat subTotal pieData kpis insights rows transactions.

(** The KPI a label selects, as the reader of the screen finds it. *)
Definition kpi (label : string) (v : View.t) : option text :=
  option_map Kpi.value
    (find (fun k => String.eqb (Kpi.label k) label) (View.kpis v)).


(** ** The upload screen *)

Module File.
Record t := mk { name : string; type : string }.
End File.

(** The three [useState] cells of [UploadStage]. *)
Module Upload.
Record t := mk { file : option File.t; error : string; over : bool }.

Definition setFile (f : option File.t) (s : t) : t := mk f (error s) (over s).
Definition setError (e : string) (s : t) : t := mk (file s) e (over s).
Definition setOver (o : bool) (s : t) : t := mk (file s) (error s) o.

(** The state a freshly mounted screen starts from. *)
Definition init : t := mk None "" false.
End Upload.

(** [accept(f)] (lines 496-504); [f] is [undefined] when the file list is
    empty. *)
Definition accept (f : option File.t) (s : Upload.t) : Upload.t :=
  match f with
  | None => s
  | Some f =>
      if negb (endsWith (File.name f) ".pdf")
         && negb (String.eqb (File.type f) "application/pdf")
      then
        Upload.setFile None
          (Upload.setError
             "Unsupported File Format — only PDF bank statements accepted." s)
      else Upload.setFile (Some f) (Upload.setError "" s)
  end.

(** [disabled={!file}] on the analyse button (line 578). *)
Definition analyze_disabled (s : Upload.t) : bool :=
  match Upload.file s with
  | Some _ => false
  | None => true
  end.

(** [onClick={() => file && onAnalyze(file)}]: the argument [onAnalyze] is
    called with, if it is called. *)
Definition analyze_click (s : Upload.t) : option File.t := Upload.file s.

(** [{error && <div className="err-pill">...}]. *)
Definition error_visible (s : Upload.t) : bool := nonempty (Upload.error s).

(** ** The root component and its request *)

(** A parsed JSON body, in the two shapes the backend contract has: an
    Analysis Result, which carries no [detail] property, or an error object
    whose [detail] string may be missing. *)
Inductive Json :=
| Result (a : Analysis.t)
| Failure (detail : option string).

(** Reading [.detail] off a parsed body; [None] is [undefined]. *)
Definition detail_of (j : Json) : option string :=
  match j with
  | Result _ => None
  | Failure d => d
  end.

(** [new Error(message)], and the host's [TypeError] and [SyntaxError], of
    which the program reads only [message]. *)
Inductive exn := Error (message : string).

Definition message (e : exn) : string := let 'Error m := e in m.

(** A promise, seen from the moment it is created: the milliseconds until
    it settles and what it settles to. *)
Module Promise.
Record t (A : Type) := mk { delay : N; outcome : exn + A }.
Arguments mk {A}.
Arguments delay {A}.
Arguments outcome {A}.

(** [Promise.all([p, q])]: fulfilled once both are, rejected as soon as
    one is. *)
Definition all {A B} (p : t A) (q : t B) : t (A * B) :=
  match outcome p, outcome q with
  | inr a, inr b => mk (N.max (delay p) (delay q)) (inr (a, b))
  | inl e, inr _ => mk (delay p) (inl e)
  | inr _, inl e => mk (delay q) (inl e)
  | inl e, inl e' =>
      if (delay p <=? delay q)%N then mk (delay p) (inl e)
      else mk (delay q) (inl e')
  end.

(** [p.catch(handler)]. *)
Definition catch {A} (p : t A) (handler : exn -> A) : t A :=
  match outcome p with
  | inl e => mk (delay p) (inr (handler e))
  | inr a => p
  end.

(** [new Promise(r => setTimeout(r, ms))].  A timer fires no earlier than
    asked; [late] is how much later the host runs it. *)
Definition timeout (ms late : N) : t unit := mk (ms + late)%N (inr tt).
End Promise.

Module Response.
Record t := mk
  { status : N;
    body : string + Json;   (* the parse error, or the parsed value *)
    body_delay : N }.       (* time [json()] takes to settle *)

(** [response.ok]: the status is in the range 200-299. *)
Definition ok (r : t) : bool := ((200 <=? status r) && (status r <=? 299))%N.

(** [response.json()]. *)
Definition json (r : t) : Promise.t Json :=
  match body r with
  | inl why => Promise.mk (body_delay r) (inl (Error why))
  | inr v => Promise.mk (body_delay r) (inr v)
  end.
End Response.

(** What the environment does with one submission: how the request
    settles, and how late each of the two timers runs. *)
Module World.
Record t := mk { reply : Promise.t Response.t; late1 : N; late2 : N }.
End World.

Module Request.
Record t := mk
  { url : string; method : string; form : list (string * File.t) }.
End Request.

(** The three [useState] cells of [App]. *)
Module App.
Record t := mk
  { stage : Stage; analysisData : option Json; apiError : string }.

Definition init : t := mk UPLOAD None "".
End App.

(** The running handler: the clock (milliseconds since the call), the
    state cells, every state rendered so far with its time, and the
    requests sent. *)
Module Run.
Record t := mk
  { clock : N;
    app : App.t;
    frames : list (N * App.t);
    sent : list Request.t }.

Definition start (a : App.t) : t := mk 0 a [] [].
End Run.

Definition M (A : Type) : Type := Run.t -> Run.t * (exn + A).

Definition ret {A} (a : A) : M A := fun r => (r, inr a).

Definition bind {A B} (c : M A) (k : A -> M B) : M B :=
  fun r =>
    match c r with
    | (r', inr a) => k a r'
    | (r', inl e) => (r', inl e)
    end.

Definition throw {A} (e : exn) : M A := fun r => (r, inl e).

(** [try { c } catch (err) { handler }]: the state written before the
    exception stays written. *)
Definition try_catch {A} (c : M A) (handler : exn -> M A) : M A :=
  fun r =>
    match c r with
    | (r', inr a) => (r', inr a)
    | (r', inl e) => handler e r'
    end.

Declare Scope js_scope.
Delimit Scope js_scope with js.
Notation "x <- c ;; k" := (bind c (fun x => k))
  (at level 61, c at next level, right associativity) : js_scope.
Notation "c ;; k" := (bind c (fun _ => k))
  (at level 61, right associativity) : js_scope.

(** [await p]: time passes until [p] settles. *)
Definition await {A} (p : Promise.t A) : M A :=
  fun r =>
    (Run.mk (Run.clock r + Promise.delay p) (Run.app r) (Run.frames r) (Run.sent r),
     Promise.outcome p).

Definition update (f : App.t -> App.t) : M unit :=
  fun r => (Run.mk (Run.clock r) (f (Run.app r)) (Run.frames r) (Run.sent r), inr tt).

Definition setApiError (e : string) : M unit :=
  update (fun a => App.mk (App.stage a) (App.analysisData a) e).

Definition setAnalysisData (d : option Json) : M unit :=
  update (fun a => App.mk (App.stage a) d (App.apiError a)).

(** [setStage(s)].  Each block of the handler between two awaits ends with
    a [setStage], so the state at that point is the one rendered next. *)
Definition setStage (s : Stage) : M unit :=
  fun r =>
    let a := App.mk s (App.analysisData (Run.app r)) (App.apiError (Run.app r)) in
    (Run.mk (Run.clock r) a (Run.frames r ++ [(Run.clock r, a)]) (Run.sent r),
     inr tt).

(** [fetch(url, {method, body})]: the request leaves, the world decides
    how it settles. *)
Definition fetch (url method : string) (body : list (string * File.t))
    (w : World.t) : M (Promise.t Response.t) :=
  fun r =>
    (Run.mk (Run.clock r) (Run.app r) (Run.frames r)
       (Run.sent r ++ [Request.mk url method body]),
     inr (World.reply w)).

Local Open Scope js_scope.

(** [handleAnalyze] (lines 835-872). *)
Definition handleAnalyze (file : File.t) (w : World.t) : M unit :=
  setApiError "" ;;
  setStage PARSING ;;
  let formData := [("file", file)] in
  try_catch
    (request <- fetch "http://localhost:8000/api/analyze" "POST" formData w ;;
     both <- await (Promise.all request (Promise.timeout 1500 (World.late1 w))) ;;
     let response := fst both in
     setStage CLASSIFYING ;;
     (if negb (Response.ok response) then
        err <- await (Promise.catch (Response.json response)
                        (fun _ => Failure (Some "Unknown error"))) ;;
        throw (Error (str_or_default (detail_of err)
                        ("Server error " ++ decimal (Response.status response))))
      else ret tt) ;;
     both <- await (Promise.all (Response.json response)
                      (Promise.timeout 1000 (World.late2 w))) ;;
     let data := fst both in
     setAnalysisData (Some data) ;;
     setStage DONE)
    (fun err =>
       setApiError (str_or (message err) "Something went wrong. Is the backend running?") ;;
       setStage UPLOAD).

(** [onReset] as [App] hands it to the dashboard (line 895):
    [setStage(STAGE.UPLOAD); setAnalysisData(null)]. *)
Definition onReset (a : App.t) : App.t :=
  let a := App.mk UPLOAD (App.analysisData a) (App.apiError a) in
  App.mk (App.stage a) None (App.apiError a).

(** The handler run to completion from the state [a]. *)
Definition analyze (file : File.t) (w : World.t) (a : App.t) : Run.t :=
  fst (handleAnalyze file w (Run.start a)).

(** The stages rendered by a run, with the time each one appeared. *)
Definition stages (r : Run.t) : list (N * Stage) :=
  map (fun f => (fst f, App.stage (snd f))) (Run.frames r).

(** ** The screen as a whole *)

(** [App] renders the upload screen only while the stage is [UPLOAD]
    ([{stage === STAGE.UPLOAD && <UploadStage .../>}]).  A mounted screen
    keeps its cells from one render to the next; an unmounted one has
    none, and mounting starts from [Upload.init]. *)
Definition render (mounted : option Upload.t) (a : App.t) : option Upload.t :=
  match App.stage a with
  | UPLOAD =>
      Some (match mounted with
            | Some u => u
            | None => Upload.init
            end)
  | _ => None
  end.

Module UI.
Record t := mk { app : App.t; upload : option Upload.t }.

Definition init : t := mk App.init (render None App.init).
End UI.

(** What the user can do.  A handler only exists while its element is on
    screen: the drop zone, the file input and the analyse button on the
    upload screen, the reset button on the dashboard. *)
Inductive event :=
| Change (f : option File.t)     (* onChange: accept(e.target.files[0]) *)
| DragOver
| DragLeave
| Drop (f : option File.t)       (* onDrop: accept(e.dataTransfer.files[0]) *)
| ClickAnalyze (w : World.t)     (* the button; [w] is how the world answers *)
| ClickReset.

(** One event handled to completion: the next screen and the requests
    that were sent. *)
Definition step (ui : UI.t) (e : event) : UI.t * list Request.t :=
  match UI.upload ui, e with
  | Some u, Change f => (UI.mk (UI.app ui) (Some (accept f u)), [])
  | Some u, DragOver => (UI.mk (UI.app ui) (Some (Upload.setOver true u)), [])
  | Some u, DragLeave => (UI.mk (UI.app ui) (Some (Upload.setOver false u)), [])
  | Some u, Drop f =>
      (UI.mk (UI.app ui) (Some (accept f (Upload.setOver false u))), [])
  | Some u, ClickAnalyze w =>
      match analyze_click u with
      | Some file =>
          let r := analyze file w (UI.app ui) in
          (UI.mk (Run.app r)
             (fold_left (fun mounted f => render mounted (snd f))
                (Run.frames r) (Some u)),
           Run.sent r)
      | None => (ui, [])
      end
  | _, ClickReset =>
      match App.stage (UI.app ui) with
      | DONE =>
          let a := onReset (UI.app ui) in
          (UI.mk a (render (UI.upload ui) a), [])
      | _ => (ui, [])
      end
  | None, _ => (ui, [])
  end.

(** The screens a session can show between two events. *)
Inductive reachable : UI.t -> Prop :=
| reach_init : reachable UI.init
| reach_step ui e : reachable ui -> reachable (fst (step ui e)).

(** ** Vocabulary of the statements and sample inputs *)

(** Two floats are told apart by their decoded sign, mantissa and exponent. *)
Ltac float_discriminate H :=
  apply (f_equal Prim2SF) in H; vm_compute in H; discriminate H.

(** The numbers a text embeds, decoded the same way. *)
Definition numbers_in (t : text) : list SpecFloat.spec_float :=
  flat_map
    (fun p =>
       match p with
       | Lit _ => []
       | Num n | Locale0 n | Fixed1 n => [Prim2SF n]
       end)
    t.

(** The insight a heading selects. *)
Definition insight (type : string) (v : View.t) : option text :=
  option_map Insight.text
    (find (fun i => String.eqb (Insight.type i) type) (View.insights v)).

(** A backend answer whose [balance] is the closing balance of the account
    rather than the difference of the two totals. *)
Definition closing_balance_result : Analysis.t :=
  Analysis.mk [] 0 "October 2026"
    (IdleCash.mk 400 1000 750 600 [Lit "Keep a buffer."])%float [] [].

(** A statement with a single credit of 3 rupees: the balance is 3. *)
Definition three_rupees : list Txn.t :=
  [Txn.mk "2026-10-02" "Interest" 3%float "Credit" "Income"].

(** The two formulas read over the rationals, where nothing is rounded:
    eighty percent of the balance, and the balance less a fifth of it. *)
Definition surplus_80_percent (balance : Q) : Q := (balance * (8 # 10))%Q.
Definition surplus_less_20_percent (balance : Q) : Q :=
  (balance - balance * (2 # 10))%Q.

(** Descending order as far as the bars need it: no category has a larger
    total than the first. *)
Definition first_is_largest (categories : list Category.t) : bool :=
  match categories with
  | [] => true
  | c0 :: rest =>
      forallb (fun c => (Category.total c <=? Category.total c0)%float) rest
  end.

(** A bar width taken relative to the first category's own total. *)
Definition width_over_first (c0 c : Category.t) : text :=
  [Num (Category.total c / Category.total c0 * 100)%float; Lit "%"].

(** A backend answer with the given categories and nothing else. *)
Definition with_categories (categories : list Category.t) : Analysis.t :=
  Analysis.mk [] 0 "October 2026"
    (IdleCash.mk 0 0 0 0 [Lit "Nothing to invest yet."])%float categories [].

(** A single category whose rows cancel out. *)
Definition refunded : Category.t := Category.mk "Shopping & Lifestyle" 0%float 1 0%float.

(** Two categories with totals 100 and 50. *)
Definition hundred_then_fifty : list Category.t :=
  [ Category.mk "Investments" 100%float 1 (100 / 150 * 100)%float;
    Category.mk "Subscriptions" 50%float 1 (50 / 150 * 100)%float ].

(** The message of the local validation (line 499). *)
Definition unsupported : string :=
  "Unsupported File Format — only PDF bank statements accepted.".

(** The one request [handleAnalyze] sends for a file. *)
Definition upload_of (file : File.t) : Request.t :=
  Request.mk "http://localhost:8000/api/analyze" "POST" [("file", file)].

(** The two events that hand a file to [accept]. *)
Definition offers (e : event) (f : File.t) : Prop :=
  e = Change (Some f) \/ e = Drop (Some f).

(** A spreadsheet export of a statement. *)
Definition spreadsheet : File.t :=
  File.mk "statement.xlsx"
    "application/vnd.openxmlformats-officedocument.spreadsheetml.sheet".

(** A PDF name with a foreign type, and a PDF type with a foreign name. *)
Definition named_pdf : File.t := File.mk "notes.pdf" "text/plain".
Definition typed_pdf : File.t := File.mk "statement.bin" "application/pdf".

(** The message used when the caught error has none (line 869). *)
Definition backend_down : string :=
  "Something went wrong. Is the backend running?".

(** Unfolds a run of the handler, leaving clock arithmetic and message
    assembly as they are. *)
Ltac run_handler :=
  unfold analyze, handleAnalyze, try_catch, bind;
  cbn -[N.add N.max decimal append Response.ok str_or str_or_default];
  rewrite ?N.add_0_l.

Ltac open_world :=
  cbn [World.reply World.late1 World.late2 Promise.delay Promise.outcome].

(** When a run turns the stage to [CLASSIFYING]: once the request has
    settled and the first timer has fired. *)
Definition classifying_at (w : World.t) : N :=
  N.max (Promise.delay (World.reply w)) (1500 + World.late1 w).

(** The state rendered with a stage and a message while the data are
    still those of [a]. *)
Definition frame (a : App.t) (s : Stage) (err : string) : App.t :=
  App.mk s (App.analysisData a) err.


(** A world that answers after 40 ms, with punctual timers. *)
Definition answers (resp : Response.t) : World.t :=
  World.mk (Promise.mk 40 (inr resp)) 0 0.

(** An ordinary statement. *)
Definition statement_pdf : File.t := File.mk "oct-2026.pdf" "application/pdf".


(** The backend answers at once with the analysis of the mock rows. *)
Definition instant : World.t :=
  World.mk
    (Promise.mk 0 (inr (Response.mk 200 (inr (Result (fallback MOCK_TRANSACTIONS))) 0)))
    0 0.

(** The local test of [accept], as a predicate on files. *)
Definition pdf_like (f : File.t) : bool :=
  endsWith (File.name f) ".pdf" || String.eqb (File.type f) "application/pdf".

(** What holds of every screen between two events: it shows the upload
    screen or the dashboard; the upload screen is mounted exactly in the
    first case, holds no analysis and only a file that passed the test;
    the dashboard is shown with data and without an error message. *)
Definition at_rest (ui : UI.t) : Prop :=
  match App.stage (UI.app ui) with
  | UPLOAD =>
      App.analysisData (UI.app ui) = None
      /\ exists u,
           UI.upload ui = Some u
           /\ forall f, Upload.file u = Some f -> pdf_like f = true
  | DONE =>
      UI.upload ui = None
      /\ App.apiError (UI.app ui) = ""
      /\ App.analysisData (UI.app ui) <> None
  | PARSING | CLASSIFYING => False
  end.

(** A session that has reached the dashboard: a PDF is chosen and
    analysed at once. *)
Definition on_dashboard : UI.t :=
  fst (step (fst (step UI.init (Change (Some statement_pdf)))) (ClickAnalyze instant)).

(** ** Code beside the claims: the other screens and the table *)

(** How a step of the progress list is drawn: ticked, spinning or
    numbered (the class suffixes [done], [active] and [pending]). *)
Module Progress.
Inductive t := done | active | pending.
End Progress.

Module Processing.
Record t := mk
  { title : string; sub : string; steps : list (string * Progress.t) }.
End Processing.

(** [ProcessingStage({ stage })] (lines 590-629). *)
Definition ProcessingStage (stage : Stage) : Processing.t :=
  let steps :=
    [ "Converting PDF pages to high-res images";
      "VLM extracting structured transaction data";
      "AI clustering transactions into lifestyle buckets";
      "Computing idle cash & subscription signals" ] in
  let parsing := (STAGE stage =? STAGE PARSING)%N in
  let activeIdx := if parsing then 1 else 3 in
  Processing.mk
    (if parsing then "Reading your statement…" else "Classifying your lifestyle…")
    (if parsing
     then "The vision model is parsing transaction rows from your PDF, handling complex table layouts OCR can't."
     else "Grouping transactions into meaningful AI-decided categories that reflect how you actually live.")
    (map (fun s =>
            let i := fst s in
            let isDone := (i <? activeIdx)%nat in
            let isActive := (i =? activeIdx)%nat in
            (snd s,
             if isDone then Progress.done
             else if isActive then Progress.active else Progress.pending))
       (combine (seq 0 (length steps)) steps)).

(** What [UploadStage] draws from its props and cells (lines 506-586):
    the class of the drop zone, its title, the file name if one is shown,
    the validation pill, the backend banner, and the button. *)
Module UploadView.
Record t := mk
  { dropzone : string;
    title : string;
    file_name : option string;
    error_pill : option string;
    api_banner : option string;
    disabled : bool;
    label : string }.
End UploadView.

Definition UploadStage (apiError : string) (s : Upload.t) : UploadView.t :=
  UploadView.mk
    ("dropzone" ++ (if Upload.over s then " over" else "")
       ++ (if nonempty (Upload.error s) then " err" else ""))
    (match Upload.file s with
     | Some _ => "Ready to analyse"
     | None => "Drop your bank statement here"
     end)
    (option_map File.name (Upload.file s))
    (if nonempty (Upload.error s) then Some (Upload.error s) else None)
    (if nonempty apiError then Some apiError else None)
    (analyze_disabled s)
    (match Upload.file s with
     | Some file => "Analyse " ++ File.name file
     | None => "Select a PDF to continue"
     end).

(** One row of the transaction table (lines 799-820). *)
Module TxRow.
Record t := mk
  { date : string;
    desc : string;
    badge : bool;            (* the recurring-charge mark *)
    pill : string;           (* t.category || "—" *)
    amt_class : string;
    amt : text }.
End TxRow.

Definition tx_row (t : Txn.t) : TxRow.t :=
  let debit := String.eqb (Txn.type t) "Debit" in
  TxRow.mk (Txn.date t) (Txn.desc t)
    (String.eqb (Txn.category t) "Subscriptions")
    (str_or (Txn.category t) "—")
    ("tx-amt " ++ (if debit then "d" else "c"))
    (Lit (if debit then "−" else "+") :: fmt (Txn.amount t)).

(** The three conditionals of [<main>] in [App] (lines 893-895). *)
Inductive Screen :=
| UploadScreen (apiError : string)
| ProcessingScreen (stage : Stage)
| DashboardScreen (data : option Json).

Definition App_main (a : App.t) : list Screen :=
  let shows s := (STAGE (App.stage a) =? STAGE s)%N in
  (if shows UPLOAD then [UploadScreen (App.apiError a)] else [])
  ++ (if shows PARSING || shows CLASSIFYING then [ProcessingScreen (App.stage a)] else [])
  ++ (if shows DONE then [DashboardScreen (App.analysisData a)] else []).

(** ** Further vocabulary and sample inputs *)

(** The backend cannot be reached: the request fails after 12 ms. *)
Definition offline : World.t :=
  World.mk (Promise.mk 12 (inl (Error "Failed to fetch"))) 0 0.

(** A proxy answers 200 with an HTML page. *)
Definition html_page : Response.t :=
  Response.mk 200 (inl "Unexpected token < in JSON at position 0") 2.

(** The cells of an upload screen agree with one another: a stored file
    passed the test and comes without a message; without a file the
    message is empty or the validation message. *)
Definition tidy (u : Upload.t) : Prop :=
  match Upload.file u with
  | Some f => Upload.error u = "" /\ pdf_like f = true
  | None => Upload.error u = "" \/ Upload.error u = unsupported
  end.

(** The first screen with a statement chosen. *)
Definition pdf_chosen : UI.t :=
  fst (step UI.init (Change (Some statement_pdf))).

(** A salary and nothing spent. *)
Definition salary_only : list Txn.t :=
  [Txn.mk "2026-10-02" "Salary Payout" 100253%float "Credit" "Income"].

(** A row whose type the backend spelt in lower case. *)
Definition lowercase_debit : Txn.t :=
  Txn.mk "2026-10-05" "Ola Cabs" 340%float "debit" "Commute & Transport".



(** The subscription record the dashboard keeps of a row. *)
Definition as_subscription (t : Txn.t) : Subscription.t :=
  Subscription.mk (Txn.desc t) (Txn.amount t) (Txn.date t).

(** A whole session: the events handled one after the other, and every
    request sent on the way. *)
Fixpoint play (ui : UI.t) (events : list event) : UI.t * list Request.t :=
  match events with
  | [] => (ui, [])
  | e :: rest =>
      let now := step ui e in
      let later := play (fst now) rest in
      (fst later, snd now ++ snd later)
  end.

(** * Properties *)

(** ** Strings and numbers *)

Example endsWith_pdf : endsWith "oct-2026.pdf" ".pdf" = true.
Proof. reflexivity. Qed.

Example endsWith_case_sensitive : endsWith "OCT-2026.PDF" ".pdf" = false.
Proof. reflexivity. Qed.

Example endsWith_shorter : endsWith "pdf" ".pdf" = false.
Proof. reflexivity. Qed.

(** Equal keys keep their order; larger totals come first. *)
Example sort_is_stable :
  map fst
    (sort (fun a b => (snd b - snd a)%float)
       [("Dining", 5); ("Rent", 9); ("Fuel", 5); ("Books", 9)]%float)
  = ["Rent"; "Books"; "Dining"; "Fuel"].
Proof. vm_compute. reflexivity. Qed.

(** A category seen twice is kept where it first appeared. *)
Example catMap_of_mock_order :
  map fst (entries (catMap_of (filter (fun t => String.eqb (Txn.type t) "Debit") MOCK_TRANSACTIONS)))
  = ["Dining & Local Eats"; "Investments"; "Commute & Transport";
     "Subscriptions"; "Utilities & Housing"; "Shopping & Lifestyle";
     "Insurance & Protection"; "Family & Transfers"].
Proof. vm_compute. reflexivity. Qed.

Lemma or_else_truthy (a b : number) : truthy b = true -> truthy (or_else a b) = true.
Proof.
  intros Hb. unfold or_else. destruct (truthy a) eqn:Ha; assumption.
Qed.

Lemma or_default_truthy (v : option number) (b : number) :
  truthy b = true -> truthy (or_default v b) = true.
Proof.
  intros Hb. destruct v as [a|]; simpl; [apply or_else_truthy|]; assumption.
Qed.

(** ** The dashboard *)

Section DashboardFacts.

Variable data : option Analysis.t.

Lemma maxCat_unfold :
  View.maxCat (Dashboard data) =
  or_default
    (option_map Category.total
       (nth_error (Analysis.categories (analysis_of data)) 0))
    1%float.
Proof. reflexivity. Qed.

(** The denominator of the bar widths is never zero and never [NaN]. *)
Lemma maxCat_truthy : truthy (View.maxCat (Dashboard data)) = true.
Proof.
  rewrite maxCat_unfold. apply or_default_truthy. reflexivity.
Qed.

Lemma rows_unfold :
  View.rows (Dashboard data) =
  map (fun c =>
         CatRow.mk (Category.name c)
           [Num (Category.total c / View.maxCat (Dashboard data) * 100)%float;
            Lit "%"]
           (fmt (Category.total c)))
    (Analysis.categories (analysis_of data)).
Proof. reflexivity. Qed.

End DashboardFacts.

(** C1, as stated, fails: the Net Balance KPI shows [idle_cash.balance] as
    received (750 here), not [total_income - monthly_burn] (600 here). *)
Lemma net_balance_not_recomputed :
  let ic := Analysis.idle_cash closing_balance_result in
  kpi "Net Balance" (Dashboard (Some closing_balance_result))
  <> Some (fmt (IdleCash.total_income ic - IdleCash.monthly_burn ic)%float).
Proof.
  intros ic H. apply (f_equal (option_map numbers_in)) in H.
  vm_compute in H. discriminate H.
Qed.

(** C1, amended: for every Analysis Result the Net Balance KPI shows the
    [idle_cash.balance] field; for the object built from the mock rows
    (no data given) that field is [total_income - monthly_burn], so there
    the KPI shows exactly income minus burn. *)
Theorem net_balance_shows_balance_field (data : option Analysis.t) :
  kpi "Net Balance" (Dashboard data)
  = Some (fmt (IdleCash.balance (Analysis.idle_cash (analysis_of data))))
  /\ (let ic := Analysis.idle_cash (analysis_of None) in
      kpi "Net Balance" (Dashboard None)
      = Some (fmt (IdleCash.total_income ic - IdleCash.monthly_burn ic)%float)).
Proof.
  split.
  - reflexivity.
  - vm_compute. reflexivity.
Qed.

(** *** The two surplus formulas *)

(** C5: the fallback of the dashboard ([balance * 0.8]) and
    [computeAnalytics] ([balance - balance * 0.2]) compute different
    numbers for some balance: on a balance of 3 the first gives
    2.4000000000000004 and the second 2.4 (one unit in the last place
    apart), although both see the same balance. *)
Theorem surplus_formulas_differ :
  exists txns,
    IdleCash.balance (Analysis.idle_cash (fallback txns))
    = Analytics.balance (computeAnalytics txns)
    /\ IdleCash.investable_surplus (Analysis.idle_cash (fallback txns))
       <> Analytics.surplus (computeAnalytics txns).
Proof.
  exists three_rupees. split.
  - reflexivity.
  - intro H. float_discriminate H.
Qed.

(** On the mock rows themselves the two formulas round to the same
    double. *)
Lemma surplus_formulas_agree_on_mock :
  IdleCash.investable_surplus (Analysis.idle_cash (fallback MOCK_TRANSACTIONS))
  = Analytics.surplus (computeAnalytics MOCK_TRANSACTIONS).
Proof. vm_compute. reflexivity. Qed.

(** Without rounding the formulas coincide: the difference of C5 comes
    from binary64 rounding alone. *)
Lemma surplus_formulas_equal_exact (balance : Q) :
  (surplus_80_percent balance == surplus_less_20_percent balance)%Q.
Proof. unfold surplus_80_percent, surplus_less_20_percent. ring. Qed.

(** *** The object built from the mock rows *)

(** C6: in the Analysis Result the dashboard builds when it has no data,
    the category totals add up to [monthly_burn], [monthly_burn] is the sum
    of the debit amounts, [total_income] the sum of the credit amounts, and
    [balance] is [total_income - monthly_burn]. *)
Theorem mock_fallback_totals :
  let a := analysis_of None in
  let ic := Analysis.idle_cash a in
  let of_type t := fun x => String.eqb (Txn.type x) t in
  sum_by Category.total (Analysis.categories a) = IdleCash.monthly_burn ic
  /\ IdleCash.monthly_burn ic
     = sum_by Txn.amount (filter (of_type "Debit") (Analysis.transactions a))
  /\ IdleCash.total_income ic
     = sum_by Txn.amount (filter (of_type "Credit") (Analysis.transactions a))
  /\ IdleCash.balance ic
     = (IdleCash.total_income ic - IdleCash.monthly_burn ic)%float
  /\ (IdleCash.monthly_burn ic, IdleCash.total_income ic, IdleCash.balance ic)
     = (42717, 100253, 57536)%float
  /\ map Category.total (Analysis.categories a)
     = [20000; 7400; 4500; 3455; 3000; 2340; 1087; 935]%float.
Proof.
  vm_compute. repeat split; reflexivity.
Qed.

(** *** Bar widths *)

(** C7, as stated, fails: when the first total is 0 the code divides by 1,
    not by that total, so the width is [0%] where [(0 / 0) * 100] is
    [NaN]. *)
Lemma bar_width_zero_first_total :
  first_is_largest [refunded] = true
  /\ map CatRow.width (View.rows (Dashboard (Some (with_categories [refunded]))))
     <> map (width_over_first refunded) [refunded].
Proof.
  split; [reflexivity|].
  intro H. apply (f_equal (map numbers_in)) in H.
  vm_compute in H. discriminate H.
Qed.

(** C7, amended: when the first total is a number other than 0 (and not
    [NaN]), every bar is [(total / first total) * 100] percent wide. *)
Theorem bar_width_relative_to_first (a : Analysis.t) (c0 : Category.t)
    (rest : list Category.t) :
  Analysis.categories a = c0 :: rest ->
  truthy (Category.total c0) = true ->
  map CatRow.width (View.rows (Dashboard (Some a)))
  = map (width_over_first c0) (c0 :: rest).
Proof.
  intros Hcats Hnz.
  assert (Hmax : View.maxCat (Dashboard (Some a)) = Category.total c0).
  { rewrite maxCat_unfold. simpl. rewrite Hcats. simpl.
    unfold or_else. rewrite Hnz. reflexivity. }
  rewrite rows_unfold, Hmax. simpl analysis_of. rewrite Hcats.
  rewrite map_map. reflexivity.
Qed.

(** For totals 100 and 50 the bars are 100% and 50% wide. *)
Lemma bar_width_100_50 :
  map CatRow.width (View.rows (Dashboard (Some (with_categories hundred_then_fifty))))
  = [[Num 100%float; Lit "%"]; [Num 50%float; Lit "%"]].
Proof.
  exact (bar_width_relative_to_first (with_categories hundred_then_fifty)
           _ _ eq_refl eq_refl).
Defined.

(** *** No categories *)

(** C10: with an empty category list the denominator [maxCat] is 1 (so it
    is not zero), no bar is drawn, and the top-spend insight is the fixed
    sentence. *)
Theorem empty_categories_fall_back (a : Analysis.t) :
  Analysis.categories a = [] ->
  let v := Dashboard (Some a) in
  View.maxCat v = 1%float
  /\ truthy (View.maxCat v) = true
  /\ View.rows v = []
  /\ View.pieData v = []
  /\ insight "Top Spend Bucket" v = Some [Lit "No spending patterns detected yet."].
Proof.
  intros Hcats v.
  assert (Hmax : View.maxCat v = 1%float).
  { unfold v. rewrite maxCat_unfold. simpl. rewrite Hcats. reflexivity. }
  split; [exact Hmax|].
  split; [apply maxCat_truthy|].
  unfold v, Dashboard, insight. simpl. rewrite Hcats. simpl.
  repeat split.
Qed.

(** The same on a backend answer without categories. *)
Lemma empty_categories_fall_back_example :
  let v := Dashboard (Some (with_categories [])) in
  View.maxCat v = 1%float
  /\ truthy (View.maxCat v) = true
  /\ View.rows v = []
  /\ View.pieData v = []
  /\ insight "Top Spend Bucket" v = Some [Lit "No spending patterns detected yet."].
Proof.
  exact (empty_categories_fall_back (with_categories []) eq_refl).
Defined.

(** ** The upload screen *)

(** Whatever the world answers, a run sends exactly one request. *)
Lemma analyze_sends (file : File.t) (w : World.t) (a : App.t) :
  Run.sent (analyze file w a) = [upload_of file].
Proof.
  destruct w as [[d [err | [status body body_delay]]] late1 late2];
    [reflexivity|].
  unfold analyze, handleAnalyze, try_catch, bind.
  cbn -[N.add N.max decimal append Response.ok].
  destruct (Response.ok _); destruct body; reflexivity.
Qed.

Lemma accept_rejects (f : File.t) (s : Upload.t) :
  endsWith (File.name f) ".pdf" = false ->
  File.type f <> "application/pdf" ->
  accept (Some f) s = Upload.mk None unsupported (Upload.over s).
Proof.
  intros Hname Htype. unfold accept. rewrite Hname.
  apply String.eqb_neq in Htype. rewrite Htype. reflexivity.
Qed.

Lemma accept_stores (f : File.t) (s : Upload.t) :
  endsWith (File.name f) ".pdf" = true \/ File.type f = "application/pdf" ->
  accept (Some f) s = Upload.mk (Some f) "" (Upload.over s).
Proof.
  intros [Hname | Htype]; unfold accept.
  - rewrite Hname. reflexivity.
  - apply String.eqb_eq in Htype. rewrite Htype, andb_false_r. reflexivity.
Qed.

(** C4: a file whose name does not end in [.pdf] and whose type is not
    [application/pdf] leaves the screen with the validation message
    shown, no file stored and the button disabled; neither offering the
    file nor pressing the button afterwards sends a request. *)
Theorem non_pdf_rejected (f : File.t) (s : Upload.t) :
  endsWith (File.name f) ".pdf" = false ->
  File.type f <> "application/pdf" ->
  let s' := accept (Some f) s in
  Upload.error s' = unsupported
  /\ error_visible s' = true
  /\ Upload.file s' = None
  /\ analyze_disabled s' = true
  /\ analyze_click s' = None
  /\ forall ui e w,
       offers e f ->
       snd (step ui e) = []
       /\ step (fst (step ui e)) (ClickAnalyze w) = (fst (step ui e), []).
Proof.
  intros Hname Htype s'. unfold s'. rewrite (accept_rejects f s Hname Htype).
  repeat (split; [reflexivity|]).
  intros [a [u|]] e w [-> | ->]; cbn -[accept];
    try rewrite (accept_rejects f _ Hname Htype); split; reflexivity.
Qed.

(** A spreadsheet is turned away. *)
Lemma non_pdf_rejected_spreadsheet :
  let s' := accept (Some spreadsheet) Upload.init in
  Upload.error s' = unsupported
  /\ error_visible s' = true
  /\ Upload.file s' = None
  /\ analyze_disabled s' = true
  /\ analyze_click s' = None
  /\ forall ui e w,
       offers e spreadsheet ->
       snd (step ui e) = []
       /\ step (fst (step ui e)) (ClickAnalyze w) = (fst (step ui e), []).
Proof.
  apply (non_pdf_rejected spreadsheet Upload.init).
  - reflexivity.
  - discriminate.
Defined.

(** C9: the test is a disjunction.  A file whose name ends in [.pdf] or
    whose type is [application/pdf] is stored without a message, the button
    is enabled, and pressing it sends the upload of that very file. *)
Theorem pdf_name_or_type_accepted (f : File.t) (s : Upload.t) :
  endsWith (File.name f) ".pdf" = true \/ File.type f = "application/pdf" ->
  let s' := accept (Some f) s in
  Upload.file s' = Some f
  /\ Upload.error s' = ""
  /\ error_visible s' = false
  /\ analyze_disabled s' = false
  /\ analyze_click s' = Some f
  /\ forall a e w,
       offers e f ->
       snd (step (fst (step (UI.mk a (Some s)) e)) (ClickAnalyze w)) = [upload_of f].
Proof.
  intros Hpdf s'. unfold s'. rewrite (accept_stores f s Hpdf).
  repeat (split; [reflexivity|]).
  intros a e w [-> | ->]; cbn -[accept]; rewrite (accept_stores f _ Hpdf);
    cbn -[analyze]; apply analyze_sends.
Qed.

(** Either half of the test is enough: both mismatched files are stored
    and can be submitted. *)
Lemma mismatched_pdfs_accepted :
  (Upload.file (accept (Some named_pdf) Upload.init) = Some named_pdf
   /\ analyze_click (accept (Some named_pdf) Upload.init) = Some named_pdf)
  /\ (Upload.file (accept (Some typed_pdf) Upload.init) = Some typed_pdf
      /\ analyze_click (accept (Some typed_pdf) Upload.init) = Some typed_pdf).
Proof.
  split.
  - destruct (pdf_name_or_type_accepted named_pdf Upload.init (or_introl eq_refl))
      as (Hfile & _ & _ & _ & Hclick & _).
    exact (conj Hfile Hclick).
  - destruct (pdf_name_or_type_accepted typed_pdf Upload.init (or_intror eq_refl))
      as (Hfile & _ & _ & _ & Hclick & _).
    exact (conj Hfile Hclick).
Defined.

(** ** The request *)

Lemma str_or_keeps (a b : string) : nonempty a = true -> str_or a b = a.
Proof. intros Ha. unfold str_or. rewrite Ha. reflexivity. Qed.

Lemma str_or_default_nonempty (v : option string) (b : string) :
  nonempty b = true -> nonempty (str_or_default v b) = true.
Proof.
  intros Hb. destruct v as [a|]; simpl; [|exact Hb].
  unfold str_or. destruct (nonempty a) eqn:Ha; assumption.
Qed.

(** The message thrown for a refused request is never empty, so the
    handler of the [catch] keeps it. *)
Lemma server_error_kept (v : option string) (status : N) :
  str_or (str_or_default v ("Server error " ++ decimal status)) backend_down
  = str_or_default v ("Server error " ++ decimal status).
Proof. apply str_or_keeps, str_or_default_nonempty. reflexivity. Qed.

Section Runs.

Variables (file : File.t) (w : World.t) (a : App.t).

(** The request itself fails: the error is shown as soon as it does. *)
Lemma run_rejected (e : exn) :
  Promise.outcome (World.reply w) = inl e ->
  analyze file w a
  = let err := str_or (message e) backend_down in
    Run.mk (Promise.delay (World.reply w)) (frame a UPLOAD err)
      [(0%N, frame a PARSING "");
       (Promise.delay (World.reply w), frame a UPLOAD err)]
      [upload_of file].
Proof.
  unfold classifying_at, frame.
  destruct w as [[d o] late1 late2]. open_world. intros ->.
  run_handler. reflexivity.
Qed.

(** A response outside 200-299. *)
Lemma run_refused (resp : Response.t) :
  Promise.outcome (World.reply w) = inr resp ->
  Response.ok resp = false ->
  analyze file w a
  = let err :=
      str_or_default
        (match Response.body resp with
         | inl _ => Some "Unknown error"
         | inr j => detail_of j
         end)
        ("Server error " ++ decimal (Response.status resp)) in
    let back := (classifying_at w + Response.body_delay resp)%N in
    Run.mk back (frame a UPLOAD err)
      [(0%N, frame a PARSING ""); (classifying_at w, frame a CLASSIFYING "");
       (back, frame a UPLOAD err)]
      [upload_of file].
Proof.
  unfold classifying_at, frame.
  destruct w as [[d o] late1 late2]. open_world. intros -> Hok.
  run_handler. rewrite Hok.
  unfold Response.json. destruct (Response.body resp) as [why | j];
    run_handler; fold backend_down; rewrite server_error_kept; reflexivity.
Qed.

(** A 2xx response whose body does not parse. *)
Lemma run_garbled (resp : Response.t) (why : string) :
  Promise.outcome (World.reply w) = inr resp ->
  Response.ok resp = true ->
  Response.body resp = inl why ->
  analyze file w a
  = let err := str_or why backend_down in
    let back := (classifying_at w + Response.body_delay resp)%N in
    Run.mk back (frame a UPLOAD err)
      [(0%N, frame a PARSING ""); (classifying_at w, frame a CLASSIFYING "");
       (back, frame a UPLOAD err)]
      [upload_of file].
Proof.
  unfold classifying_at, frame.
  destruct w as [[d o] late1 late2]. open_world. intros -> Hok Hbody.
  run_handler. rewrite Hok.
  unfold Response.json. rewrite Hbody.
  run_handler. reflexivity.
Qed.

(** A 2xx response with a JSON body. *)
Lemma run_answered (resp : Response.t) (v : Json) :
  Promise.outcome (World.reply w) = inr resp ->
  Response.ok resp = true ->
  Response.body resp = inr v ->
  analyze file w a
  = let done :=
      (classifying_at w + N.max (Response.body_delay resp) (1000 + World.late2 w))%N in
    Run.mk done (App.mk DONE (Some v) "")
      [(0%N, frame a PARSING ""); (classifying_at w, frame a CLASSIFYING "");
       (done, App.mk DONE (Some v) "")]
      [upload_of file].
Proof.
  unfold classifying_at, frame.
  destruct w as [[d o] late1 late2]. open_world. intros -> Hok Hbody.
  run_handler. rewrite Hok.
  unfold Response.json. rewrite Hbody.
  run_handler. reflexivity.
Qed.

End Runs.




(** C3: when the request is answered with a 2xx JSON body, the stage
    goes [UPLOAD], [PARSING], [CLASSIFYING], [DONE] and nothing else;
    [PARSING] is shown from the call until [classifying], at least 1500 ms
    later, and [CLASSIFYING] from then until [done], at least 1000 ms
    later still.  With no latency at all the two spans are the two timers. *)
Theorem success_walks_stages (file : File.t) (w : World.t) (a : App.t)
    (resp : Response.t) (v : Json) :
  App.stage a = UPLOAD ->
  Promise.outcome (World.reply w) = inr resp ->
  Response.ok resp = true ->
  Response.body resp = inr v ->
  let r := analyze file w a in
  let classifying :=
    N.max (Promise.delay (World.reply w)) (1500 + World.late1 w) in
  let done :=
    (classifying + N.max (Response.body_delay resp) (1000 + World.late2 w))%N in
  App.stage a :: map snd (stages r) = [UPLOAD; PARSING; CLASSIFYING; DONE]
  /\ map STAGE (App.stage a :: map snd (stages r)) = [0; 1; 2; 3]%N
  /\ map fst (stages r) = [0%N; classifying; done]
  /\ (0 + 1500 <= classifying)%N
  /\ (classifying + 1000 <= done)%N
  /\ (Promise.delay (World.reply w) = 0%N ->
      Response.body_delay resp = 0%N ->
      classifying = (1500 + World.late1 w)%N
      /\ done = (classifying + (1000 + World.late2 w))%N)
  /\ Run.app r = App.mk DONE (Some v) "".
Proof.
  intros Hstage Hreply Hok Hbody r classifying done. unfold r.
  rewrite (run_answered file w a resp v Hreply Hok Hbody), Hstage.
  fold classifying. fold done.
  repeat split; try reflexivity.
  - unfold classifying. lia.
  - unfold done. lia.
  - unfold classifying. lia.
  - unfold done. lia.
Qed.

(** With no latency and punctual timers: [PARSING] at 0, [CLASSIFYING] at
    1500 ms and [DONE] at 2500 ms. *)
Lemma success_walks_stages_instant :
  let r := analyze statement_pdf instant App.init in
  App.stage App.init :: map snd (stages r) = [UPLOAD; PARSING; CLASSIFYING; DONE]
  /\ map fst (stages r) = [0; 1500; 2500]%N.
Proof.
  destruct (success_walks_stages statement_pdf instant App.init _ _
              eq_refl eq_refl eq_refl eq_refl) as (Hwalk & _ & Htimes & _).
  exact (conj Hwalk Htimes).
Defined.

(** ** Sessions *)

Lemma accept_keeps_pdf (f : option File.t) (u : Upload.t) :
  (forall g, Upload.file u = Some g -> pdf_like g = true) ->
  forall g, Upload.file (accept f u) = Some g -> pdf_like g = true.
Proof.
  intros Hu g. destruct f as [f|]; [|apply Hu].
  unfold accept.
  destruct (negb (endsWith (File.name f) ".pdf")
            && negb (String.eqb (File.type f) "application/pdf")) eqn:Htest.
  - discriminate.
  - cbn. intros [= <-]. unfold pdf_like.
    destruct (endsWith (File.name f) ".pdf"); [reflexivity|].
    destruct (String.eqb (File.type f) "application/pdf"); [reflexivity|].
    discriminate Htest.
Qed.

(** Where a run leaves the screen: the stage has left [UPLOAD] on the way,
    so a screen that comes back is freshly mounted. *)
Lemma analyze_lands (file : File.t) (w : World.t) (a : App.t) (u : Upload.t) :
  App.analysisData a = None ->
  let r := analyze file w a in
  at_rest
    (UI.mk (Run.app r)
       (fold_left (fun mounted f => render mounted (snd f)) (Run.frames r) (Some u))).
Proof.
  intros Hdata r. unfold r.
  destruct (Promise.outcome (World.reply w)) as [e | resp] eqn:Hreply.
  - rewrite (run_rejected file w a e Hreply). cbn. rewrite Hdata.
    split; [reflexivity|]. exists Upload.init. split; [reflexivity|discriminate].
  - destruct (Response.ok resp) eqn:Hok.
    + destruct (Response.body resp) as [why | v] eqn:Hbody.
      * rewrite (run_garbled file w a resp why Hreply Hok Hbody). cbn.
        rewrite Hdata. split; [reflexivity|].
        exists Upload.init. split; [reflexivity|discriminate].
      * rewrite (run_answered file w a resp v Hreply Hok Hbody). cbn.
        repeat split. discriminate.
    + rewrite (run_refused file w a resp Hreply Hok). cbn.
      rewrite Hdata. split; [reflexivity|].
      exists Upload.init. split; [reflexivity|discriminate].
Qed.

Lemma step_at_rest (ui : UI.t) (e : event) : at_rest ui -> at_rest (fst (step ui e)).
Proof.
  destruct ui as [a mounted]. unfold at_rest. cbn [UI.app UI.upload].
  destruct (App.stage a) eqn:Hstage; try contradiction.
  - intros (Hdata & u & -> & Hfile).
    destruct e; cbn -[accept analyze];
      repeat (rewrite Hstage; cbn -[accept analyze]).
    + split; [exact Hdata|]. eexists. split; [reflexivity|].
      apply accept_keeps_pdf, Hfile.
    + split; [exact Hdata|]. eexists. split; [reflexivity|exact Hfile].
    + split; [exact Hdata|]. eexists. split; [reflexivity|exact Hfile].
    + split; [exact Hdata|]. eexists. split; [reflexivity|].
      apply accept_keeps_pdf. exact Hfile.
    + unfold analyze_click. destruct (Upload.file u) as [file|] eqn:Hsel.
      * apply (analyze_lands file w a u Hdata).
      * cbn. rewrite Hstage. split; [exact Hdata|].
        exists u. split; [reflexivity|]. rewrite Hsel. discriminate.
    + split; [exact Hdata|]. exists u. split; [reflexivity|exact Hfile].
  - intros (-> & Herr & Hdata).
    destruct e; cbn; repeat (rewrite Hstage; cbn); try (repeat split; assumption).
    split; [reflexivity|]. exists Upload.init. split; [reflexivity|discriminate].
Qed.

Lemma reachable_at_rest (ui : UI.t) : reachable ui -> at_rest ui.
Proof.
  induction 1 as [| ui e _ IH].
  - split; [reflexivity|]. exists Upload.init. split; [reflexivity|discriminate].
  - apply step_at_rest, IH.
Qed.

(** Every request of a session carries a file that passed the local test. *)
Lemma requests_carry_pdfs (ui : UI.t) (e : event) (q : Request.t) :
  reachable ui ->
  In q (snd (step ui e)) ->
  exists f, q = upload_of f /\ pdf_like f = true.
Proof.
  intros Hreach. apply reachable_at_rest in Hreach.
  destruct ui as [a mounted]. unfold at_rest in Hreach. cbn [UI.app UI.upload] in Hreach.
  destruct (App.stage a) eqn:Hstage; try contradiction.
  - destruct Hreach as (_ & u & -> & Hfile).
    destruct e; cbn -[accept analyze]; rewrite ?Hstage; try contradiction.
    unfold analyze_click. destruct (Upload.file u) as [file|] eqn:Hsel;
      cbn -[analyze]; [|contradiction].
    rewrite analyze_sends. intros [<- | []].
    exists file. split; [reflexivity|]. apply Hfile. reflexivity.
  - destruct Hreach as (-> & _).
    destruct e; cbn; rewrite ?Hstage; contradiction.
Qed.

(** C8: on the dashboard of a session, the reset button sets the stage to
    [UPLOAD] and [analysisData] to [null], sends nothing, and the screen is
    the one the session started with: no analysis, no message, and a newly
    mounted upload screen without a file. *)
Theorem reset_returns_to_start (ui : UI.t) :
  reachable ui ->
  App.stage (UI.app ui) = DONE ->
  let ui' := fst (step ui ClickReset) in
  UI.app ui' = onReset (UI.app ui)
  /\ App.stage (UI.app ui') = UPLOAD
  /\ App.analysisData (UI.app ui') = None
  /\ UI.upload ui' = Some Upload.init
  /\ option_map Upload.file (UI.upload ui') = Some None
  /\ ui' = UI.init
  /\ snd (step ui ClickReset) = [].
Proof.
  intros Hreach Hstage ui'.
  pose proof (reachable_at_rest ui Hreach) as Hrest.
  destruct ui as [[stage data err] mounted].
  unfold at_rest in Hrest. cbn in Hstage, Hrest. subst stage.
  destruct Hrest as (-> & -> & _).
  unfold ui'. cbn. repeat split.
Qed.

(** Resetting that dashboard gives back the first screen. *)
Lemma reset_returns_to_start_example :
  App.stage (UI.app on_dashboard) = DONE
  /\ fst (step on_dashboard ClickReset) = UI.init.
Proof.
  split; [reflexivity|].
  apply (reset_returns_to_start on_dashboard).
  - unfold on_dashboard. apply reach_step, reach_step, reach_init.
  - reflexivity.
Defined.

(** * Further properties of the code *)

(** ** Every run of the request handler *)

(** X1: whatever the backend does, a run sends exactly one request: a POST
    to the fixed URL whose form carries the file under [file].  Nothing
    is retried. *)
Theorem every_run_sends_one_upload (file : File.t) (w : World.t) (a : App.t) :
  Run.sent (analyze file w a)
  = [Request.mk "http://localhost:8000/api/analyze" "POST" [("file", file)]].
Proof.
  destruct (Promise.outcome (World.reply w)) as [e | resp] eqn:Hreply.
  - rewrite (run_rejected file w a e Hreply). reflexivity.
  - destruct (Response.ok resp) eqn:Hok.
    + destruct (Response.body resp) as [why | v] eqn:Hbody.
      * rewrite (run_garbled file w a resp why Hreply Hok Hbody). reflexivity.
      * rewrite (run_answered file w a resp v Hreply Hok Hbody). reflexivity.
    + rewrite (run_refused file w a resp Hreply Hok). reflexivity.
Qed.

(** X2: a run never ends on the progress screen.  It ends on the
    dashboard, with the parsed body as data and no message, exactly when
    the request is answered with a 2xx status and a JSON body; in every
    other case it ends on the upload screen with the data untouched and a
    message that is not empty. *)
Theorem every_run_comes_to_rest (file : File.t) (w : World.t) (a : App.t) :
  let final := Run.app (analyze file w a) in
  let unwound :=
    App.stage final = UPLOAD
    /\ App.analysisData final = App.analysisData a
    /\ nonempty (App.apiError final) = true in
  match Promise.outcome (World.reply w) with
  | inl _ => unwound
  | inr resp =>
      match Response.ok resp, Response.body resp with
      | true, inr v => final = App.mk DONE (Some v) ""
      | _, _ => unwound
      end
  end.
Proof.
  intros final unwound. unfold unwound, final.
  destruct (Promise.outcome (World.reply w)) as [e | resp] eqn:Hreply.
  - rewrite (run_rejected file w a e Hreply). cbn.
    repeat split. unfold str_or.
    destruct (nonempty (message e)) eqn:He; [exact He | reflexivity].
  - destruct (Response.ok resp) eqn:Hok.
    + destruct (Response.body resp) as [why | v] eqn:Hbody.
      * rewrite (run_garbled file w a resp why Hreply Hok Hbody). cbn.
        repeat split. unfold str_or.
        destruct (nonempty why) eqn:He; [exact He | reflexivity].
      * rewrite (run_answered file w a resp v Hreply Hok Hbody). reflexivity.
    + assert (Hun : App.stage (Run.app (analyze file w a)) = UPLOAD
                    /\ App.analysisData (Run.app (analyze file w a)) = App.analysisData a
                    /\ nonempty (App.apiError (Run.app (analyze file w a))) = true).
      { rewrite (run_refused file w a resp Hreply Hok).
        cbn -[decimal append str_or_default]. repeat split.
        apply str_or_default_nonempty. reflexivity. }
      destruct (Response.body resp); exact Hun.
Qed.

(** X3: when the request itself fails (no response at all), the upload
    screen is back at the moment of the failure, without waiting for the
    1.5 s timer and without ever showing the classifying stage; the message
    is the one of the error, or the fixed sentence when the error has
    none. *)
Theorem network_failure_returns_at_once (file : File.t) (w : World.t)
    (a : App.t) (e : exn) :
  Promise.outcome (World.reply w) = inl e ->
  let r := analyze file w a in
  stages r = [(0%N, PARSING); (Promise.delay (World.reply w), UPLOAD)]
  /\ Run.clock r = Promise.delay (World.reply w)
  /\ App.apiError (Run.app r)
     = (if String.eqb (message e) ""
        then "Something went wrong. Is the backend running?"
        else message e)
  /\ App.analysisData (Run.app r) = App.analysisData a.
Proof.
  intros Hreply r. unfold r. rewrite (run_rejected file w a e Hreply).
  cbn. repeat split. unfold str_or, nonempty.
  destruct (String.eqb (message e) ""); reflexivity.
Qed.

(** X4: a 2xx response whose body is not JSON is an error too: the stage
    goes through [CLASSIFYING] and returns to [UPLOAD] as soon as the body
    has failed to parse (the 1 s timer is not awaited), with the parse
    error as the message and the data untouched. *)
Theorem garbled_success_unwinds (file : File.t) (w : World.t) (a : App.t)
    (resp : Response.t) (why : string) :
  Promise.outcome (World.reply w) = inr resp ->
  Response.ok resp = true ->
  Response.body resp = inl why ->
  let r := analyze file w a in
  let classifying :=
    N.max (Promise.delay (World.reply w)) (1500 + World.late1 w) in
  stages r
  = [(0%N, PARSING); (classifying, CLASSIFYING);
     ((classifying + Response.body_delay resp)%N, UPLOAD)]
  /\ App.apiError (Run.app r)
     = (if String.eqb why ""
        then "Something went wrong. Is the backend running?"
        else why)
  /\ App.analysisData (Run.app r) = App.analysisData a.
Proof.
  intros Hreply Hok Hbody r classifying. unfold r.
  rewrite (run_garbled file w a resp why Hreply Hok Hbody).
  cbn -[N.add N.max]. repeat split. unfold str_or, nonempty.
  destruct (String.eqb why ""); reflexivity.
Qed.


(** ** The upload screen and the session *)

Lemma accept_over (g : option File.t) (s : Upload.t) :
  Upload.over (accept g s) = Upload.over s.
Proof.
  destruct g as [g|]; [|reflexivity]. unfold accept.
  destruct (negb _ && negb _); reflexivity.
Qed.

(** An offered file decides the file and the message; the highlight of
    the drop zone is kept. *)
Lemma accept_some (f : File.t) (s : Upload.t) :
  accept (Some f) s
  = if pdf_like f then Upload.mk (Some f) "" (Upload.over s)
    else Upload.mk None unsupported (Upload.over s).
Proof.
  unfold accept, pdf_like.
  destruct (endsWith (File.name f) ".pdf");
    destruct (String.eqb (File.type f) "application/pdf"); reflexivity.
Qed.

(** X6: the outcome of offering a file depends on that file alone: a
    second offer replaces the first (so an unsupported file offered after
    a supported one discards the stored file), offering the same file
    twice changes nothing more, and an empty file list, as when the dialog
    is cancelled, keeps the screen as it is. *)
Theorem last_offer_wins (f : File.t) (g : option File.t) (s : Upload.t) :
  accept (Some f) (accept g s) = accept (Some f) s
  /\ accept (Some f) (accept (Some f) s) = accept (Some f) s
  /\ accept None s = s.
Proof.
  assert (H : forall g', accept (Some f) (accept g' s) = accept (Some f) s).
  { intros g'. rewrite !accept_some, accept_over. reflexivity. }
  split; [apply H|]. split; [apply H | reflexivity].
Qed.

Lemma accept_tidy (g : option File.t) (u : Upload.t) : tidy u -> tidy (accept g u).
Proof.
  intros Hu. destruct g as [g|]; [|exact Hu]. unfold accept, tidy.
  destruct (negb (endsWith (File.name g) ".pdf")
            && negb (String.eqb (File.type g) "application/pdf")) eqn:Htest; cbn.
  - right. reflexivity.
  - split; [reflexivity|]. unfold pdf_like.
    destruct (endsWith (File.name g) ".pdf"); [reflexivity|].
    destruct (String.eqb (File.type g) "application/pdf"); [reflexivity|].
    discriminate Htest.
Qed.

(** After a run the upload screen is either absent or newly mounted. *)
Lemma analyze_remounts (file : File.t) (w : World.t) (a : App.t) (u : Upload.t) :
  let r := analyze file w a in
  fold_left (fun mounted f => render mounted (snd f)) (Run.frames r) (Some u)
  = match App.stage (Run.app r) with
    | UPLOAD => Some Upload.init
    | _ => None
    end.
Proof.
  intros r. unfold r.
  destruct (Promise.outcome (World.reply w)) as [e | resp] eqn:Hreply.
  - rewrite (run_rejected file w a e Hreply). reflexivity.
  - destruct (Response.ok resp) eqn:Hok.
    + destruct (Response.body resp) as [why | v] eqn:Hbody.
      * rewrite (run_garbled file w a resp why Hreply Hok Hbody). reflexivity.
      * rewrite (run_answered file w a resp v Hreply Hok Hbody). reflexivity.
    + rewrite (run_refused file w a resp Hreply Hok). reflexivity.
Qed.

Lemma step_tidy (ui : UI.t) (e : event) :
  (forall u, UI.upload ui = Some u -> tidy u) ->
  forall u, UI.upload (fst (step ui e)) = Some u -> tidy u.
Proof.
  intros Htidy. destruct ui as [a [u0|]].
  - specialize (Htidy u0 eq_refl).
    destruct e; cbn -[accept analyze]; try (intros u [= <-]).
    + apply accept_tidy, Htidy.
    + exact Htidy.
    + exact Htidy.
    + apply accept_tidy. exact Htidy.
    + unfold analyze_click. destruct (Upload.file u0) as [file|] eqn:Hsel;
        cbn -[analyze].
      * rewrite analyze_remounts.
        destruct (App.stage (Run.app (analyze file w a))); intros u [= <-].
        left. reflexivity.
      * intros u [= <-]. exact Htidy.
    + destruct (App.stage a); cbn; intros u [= <-]; exact Htidy.
  - destruct e; cbn; try discriminate.
    destruct (App.stage a); cbn; try discriminate.
    intros u [= <-]. left. reflexivity.
Qed.

Lemma reachable_tidy (ui : UI.t) :
  reachable ui -> forall u, UI.upload ui = Some u -> tidy u.
Proof.
  induction 1 as [| ui e Hreach IH].
  - intros u [= <-]. left. reflexivity.
  - apply step_tidy, IH.
Qed.

(** X7: throughout a session the upload screen never shows a stored file
    together with a validation message: a stored file passed the test and
    the pill is hidden, and a pill, when shown, is the validation message
    beside a disabled button. *)
Theorem upload_screen_stays_tidy (ui : UI.t) (u : Upload.t) :
  reachable ui ->
  UI.upload ui = Some u ->
  let v := UploadStage (App.apiError (UI.app ui)) u in
  (forall name, UploadView.file_name v = Some name ->
     UploadView.error_pill v = None
     /\ UploadView.disabled v = false
     /\ UploadView.label v = ("Analyse " ++ name)%string
     /\ exists f, Upload.file u = Some f /\ File.name f = name /\ pdf_like f = true)
  /\ (forall msg, UploadView.error_pill v = Some msg ->
       msg = unsupported
       /\ UploadView.file_name v = None
       /\ UploadView.disabled v = true
       /\ UploadView.label v = "Select a PDF to continue").
Proof.
  intros Hreach Hu v. pose proof (reachable_tidy ui Hreach u Hu) as Ht.
  unfold tidy in Ht. unfold v, UploadStage, analyze_disabled. cbn.
  destruct (Upload.file u) as [f|]; cbn.
  - destruct Ht as (-> & Hpdf). split.
    + intros name [= <-]. repeat split. exists f. repeat split. exact Hpdf.
    + cbn. discriminate.
  - split; [discriminate|]. intros msg.
    destruct Ht as [-> | ->]; cbn; [discriminate|].
    intros [= <-]. repeat split.
Qed.

(** A run that ends on the upload screen ends with a message. *)
Lemma every_run_ends_told (file : File.t) (w : World.t) (a : App.t) :
  match App.stage (Run.app (analyze file w a)) with
  | UPLOAD => nonempty (App.apiError (Run.app (analyze file w a))) = true
  | _ => True
  end.
Proof.
  destruct (Promise.outcome (World.reply w)) as [e | resp] eqn:Hreply.
  - rewrite (run_rejected file w a e Hreply). cbn. unfold str_or.
    destruct (nonempty (message e)) eqn:He; [exact He | reflexivity].
  - destruct (Response.ok resp) eqn:Hok.
    + destruct (Response.body resp) as [why | v] eqn:Hbody.
      * rewrite (run_garbled file w a resp why Hreply Hok Hbody). cbn.
        unfold str_or. destruct (nonempty why) eqn:He; [exact He | reflexivity].
      * rewrite (run_answered file w a resp v Hreply Hok Hbody). exact I.
    + rewrite (run_refused file w a resp Hreply Hok).
      cbn -[decimal append str_or_default].
      apply str_or_default_nonempty. reflexivity.
Qed.


(** X9: an analysis that fails forgets the chosen file.  When the run
    ends on the upload screen, that screen is newly mounted: no file, no
    validation message, a disabled button, and the banner with the
    message, so the file has to be chosen again before a retry. *)
Theorem failed_analysis_forgets_file (ui : UI.t) (u : Upload.t) (f : File.t)
    (w : World.t) :
  UI.upload ui = Some u ->
  Upload.file u = Some f ->
  App.stage (Run.app (analyze f w (UI.app ui))) = UPLOAD ->
  let ui' := fst (step ui (ClickAnalyze w)) in
  UI.upload ui' = Some Upload.init
  /\ exists msg,
       App.apiError (UI.app ui') = msg
       /\ nonempty msg = true
       /\ UploadStage msg Upload.init
          = UploadView.mk "dropzone" "Drop your bank statement here" None None
              (Some msg) true "Select a PDF to continue".
Proof.
  intros Hu Hf Hfail ui'. unfold ui'. destruct ui as [a mounted].
  cbn in Hu, Hfail. subst mounted. cbn -[analyze]. unfold analyze_click.
  rewrite Hf. cbn -[analyze]. rewrite analyze_remounts, Hfail.
  split; [reflexivity|]. eexists. split; [reflexivity|].
  assert (Hmsg : nonempty (App.apiError (Run.app (analyze f w a))) = true).
  { pose proof (every_run_ends_told f w a) as H. rewrite Hfail in H. exact H. }
  split; [exact Hmsg|]. unfold UploadStage. rewrite Hmsg. reflexivity.
Qed.

(** X10: a request leaves only when the analyse button is pressed with a
    file stored, and then it is the single upload of that file; every
    other event, and the button without a file, sends nothing. *)
Theorem only_the_button_sends (ui : UI.t) (e : event) :
  snd (step ui e) = []
  \/ exists w u f,
       e = ClickAnalyze w
       /\ UI.upload ui = Some u
       /\ Upload.file u = Some f
       /\ snd (step ui e) = [upload_of f].
Proof.
  destruct ui as [a [u|]].
  - destruct e; cbn -[analyze]; try (left; reflexivity).
    + unfold analyze_click. destruct (Upload.file u) as [f|] eqn:Hf.
      * right. exists w, u, f. cbn -[analyze]. rewrite analyze_sends.
        repeat split. exact Hf.
      * left. reflexivity.
    + destruct (App.stage a); left; reflexivity.
  - left. destruct e; cbn; try reflexivity.
    destruct (App.stage a); reflexivity.
Qed.

(** X12: the three conditionals of the root component exclude one
    another and leave no stage out: each state draws exactly one screen,
    and the upload screen is drawn exactly when its cells are mounted. *)
Theorem one_screen_at_a_time (a : App.t) (mounted : option Upload.t) :
  App_main a
  = match App.stage a with
    | UPLOAD => [UploadScreen (App.apiError a)]
    | PARSING | CLASSIFYING => [ProcessingScreen (App.stage a)]
    | DONE => [DashboardScreen (App.analysisData a)]
    end
  /\ (render mounted a <> None <-> App_main a = [UploadScreen (App.apiError a)]).
Proof.
  unfold App_main, render. destruct (App.stage a); cbn; (split; [reflexivity|]).
  all: split; [intros H|intros H]; try reflexivity; try discriminate;
    try (exfalso; apply H; reflexivity).
Qed.

(** ** The progress screen *)

(** X13: for every stage the progress list has exactly one spinning
    step, with every step before it ticked and every step after it
    numbered: the second step while parsing, the fourth otherwise.  A step
    ticked or spinning while parsing is ticked while classifying, and the
    third step is never the spinning one. *)
Theorem progress_list_has_one_spinner (stage : Stage) :
  let marks s := map snd (Processing.steps (ProcessingStage s)) in
  let n := match stage with PARSING => 1 | _ => 3 end in
  marks stage
  = repeat Progress.done n ++ [Progress.active] ++ repeat Progress.pending (3 - n)
  /\ map fst (Processing.steps (ProcessingStage stage))
     = map fst (Processing.steps (ProcessingStage PARSING))
  /\ nth_error (marks stage) 2 <> Some Progress.active
  /\ Forall2 (fun before after => before <> Progress.pending -> after = Progress.done)
       (marks PARSING) (marks CLASSIFYING).
Proof.
  destruct stage; cbn; repeat split; try discriminate;
    repeat constructor; intros H; try reflexivity; exfalso; apply H; reflexivity.
Qed.

(** ** Aggregation: [computeAnalytics] and the fallback of the dashboard *)

(** *** The sort *)

Lemma insert_map {A B} (f : A -> B) (cmp : A -> A -> number)
    (cmp' : B -> B -> number) (x : A) (l : list A) :
  (forall a b, cmp' (f a) (f b) = cmp a b) ->
  insert cmp' (f x) (map f l) = map f (insert cmp x l).
Proof.
  intros Hcmp. induction l as [| y l IH]; [reflexivity|].
  cbn. rewrite Hcmp. destruct (0 <? cmp y x)%float; [reflexivity|].
  cbn. rewrite IH. reflexivity.
Qed.

(** Sorting commutes with a relabelling that the comparators respect. *)
Lemma sort_map {A B} (f : A -> B) (cmp : A -> A -> number)
    (cmp' : B -> B -> number) (l : list A) :
  (forall a b, cmp' (f a) (f b) = cmp a b) ->
  sort cmp' (map f l) = map f (sort cmp l).
Proof.
  intros Hcmp. unfold sort. change (@nil B) with (map f []).
  generalize (@nil A) as acc.
  induction l as [| x l IH]; intros acc; [reflexivity|].
  cbn. rewrite (insert_map f cmp cmp' x acc Hcmp). apply IH.
Qed.





(** *** The sign of a difference of two doubles *)




(** *** The category map *)




Lemma sum_by_map {A B} (f : B -> number) (g : A -> B) (l : list A) :
  sum_by f (map g l) = sum_by (fun a => f (g a)) l.
Proof.
  unfold sum_by. generalize 0%float as s.
  induction l as [| a l IH]; intros s; [reflexivity|]. cbn. apply IH.
Qed.

(** *** What the two aggregations share *)

(** X14: the fallback of the dashboard repeats the aggregation of
    [computeAnalytics]: on every list of rows the two compute the same
    burn, the same income, the same balance, and the same categories with
    the same totals in the same order.  Only the surplus formula
    differs. *)
Theorem fallback_repeats_computeAnalytics (txns : list Txn.t) :
  let a := fallback txns in
  let c := computeAnalytics txns in
  IdleCash.monthly_burn (Analysis.idle_cash a) = Analytics.totalBurn c
  /\ IdleCash.total_income (Analysis.idle_cash a) = Analytics.totalIncome c
  /\ IdleCash.balance (Analysis.idle_cash a) = Analytics.balance c
  /\ map (fun k => (Category.name k, Category.total k)) (Analysis.categories a)
     = Analytics.categories c
  /\ Analysis.transactions a = txns
  /\ Analysis.transaction_count a = length txns.
Proof.
  cbn. repeat split.
  set (debits := filter _ txns). set (burn := sum_by Txn.amount debits).
  rewrite (sort_map
             (fun e : string * number =>
                let '(name, total) := e in
                Category.mk name total 1 (total / burn * 100)%float)
             (fun a b => (snd b - snd a)%float)).
  - rewrite map_map. unfold entries.
    rewrite (map_ext _ (fun e => e)); [apply map_id|].
    intros [name total]. reflexivity.
  - intros [n1 t1] [n2 t2]. reflexivity.
Qed.

(** X15: a row whose type is neither [Debit] nor [Credit] counts for
    nothing, wherever it stands in the list: [computeAnalytics] returns
    the same record with or without it, and the fallback the same totals
    and categories.  The table still lists the row, as a credit. *)
Theorem unknown_type_counts_for_nothing (t : Txn.t) (before after : list Txn.t) :
  Txn.type t <> "Debit" ->
  Txn.type t <> "Credit" ->
  computeAnalytics (before ++ t :: after) = computeAnalytics (before ++ after)
  /\ Analysis.idle_cash (fallback (before ++ t :: after))
     = Analysis.idle_cash (fallback (before ++ after))
  /\ Analysis.categories (fallback (before ++ t :: after))
     = Analysis.categories (fallback (before ++ after))
  /\ TxRow.amt (tx_row t) = Lit "+" :: fmt (Txn.amount t)
  /\ TxRow.amt_class (tx_row t) = "tx-amt c".
Proof.
  intros Hd Hc. apply String.eqb_neq in Hd, Hc.
  assert (Hdebit : filter (fun x => String.eqb (Txn.type x) "Debit") (before ++ t :: after)
                   = filter (fun x => String.eqb (Txn.type x) "Debit") (before ++ after)).
  { rewrite !filter_app. cbn. rewrite Hd. reflexivity. }
  assert (Hcredit : filter (fun x => String.eqb (Txn.type x) "Credit") (before ++ t :: after)
                    = filter (fun x => String.eqb (Txn.type x) "Credit") (before ++ after)).
  { rewrite !filter_app. cbn. rewrite Hc. reflexivity. }
  unfold computeAnalytics, fallback, tx_row. cbn.
  rewrite Hdebit, Hcredit, Hd. repeat split.
Qed.

(** The lower-case row is such a row. *)
Lemma unknown_type_counts_for_nothing_lowercase :
  computeAnalytics (MOCK_TRANSACTIONS ++ [lowercase_debit])
  = computeAnalytics MOCK_TRANSACTIONS
  /\ TxRow.amt (tx_row lowercase_debit) = [Lit "+"; Lit "₹"; Locale0 340%float].
Proof.
  destruct (unknown_type_counts_for_nothing lowercase_debit MOCK_TRANSACTIONS [])
    as (Hsame & _ & _ & Hamt & _); try discriminate.
  rewrite app_nil_r in Hsame. exact (conj Hsame Hamt).
Defined.



(** X18: a statement without a debit row has no burn, no category and no
    subscription in [computeAnalytics]; its balance is its income less
    zero, and the fallback has no category to scale by. *)
Theorem nothing_spent (txns : list Txn.t) :
  (forall t, In t txns -> Txn.type t <> "Debit") ->
  let c := computeAnalytics txns in
  Analytics.totalBurn c = 0%float
  /\ Analytics.categories c = []
  /\ Analytics.subs c = []
  /\ Analytics.subTotal c = 0%float
  /\ Analytics.balance c = (Analytics.totalIncome c - 0)%float
  /\ Analysis.categories (fallback txns) = [].
Proof.
  intros Hnone.
  assert (Hd : filter (fun t => String.eqb (Txn.type t) "Debit") txns = []).
  { induction txns as [| t l IH]; [reflexivity|]. cbn.
    destruct (String.eqb_spec (Txn.type t) "Debit") as [Heq | _].
    - exfalso. apply (Hnone t); [left; reflexivity | exact Heq].
    - apply IH. intros t' Ht'. apply Hnone. right. exact Ht'. }
  unfold computeAnalytics, fallback. cbn. rewrite Hd. repeat split.
Qed.

Lemma nothing_spent_salary_only :
  Analytics.totalBurn (computeAnalytics salary_only) = 0%float
  /\ Analytics.categories (computeAnalytics salary_only) = []
  /\ Analytics.balance (computeAnalytics salary_only) = 100253%float.
Proof.
  destruct (nothing_spent salary_only) as (Hburn & Hcats & _ & _ & Hbal & _).
  - intros t [<- | []]. discriminate.
  - exact (conj Hburn (conj Hcats Hbal)).
Defined.

(** X19: the two aggregations choose the subscriptions differently:
    [computeAnalytics] among the debit rows, the fallback among all rows.
    When every row categorised [Subscriptions] is a debit, as in the mock
    rows, they keep the same rows in the same order and the monthly total
    the dashboard shows is the [subTotal] of [computeAnalytics]. *)
Theorem subscriptions_agree_when_debits (txns : list Txn.t) :
  (forall t, In t txns -> Txn.category t = "Subscriptions" -> Txn.type t = "Debit") ->
  Analysis.subscriptions (fallback txns)
  = map as_subscription (Analytics.subs (computeAnalytics txns))
  /\ View.subTotal (Dashboard (Some (fallback txns)))
     = Analytics.subTotal (computeAnalytics txns).
Proof.
  intros Hdebit.
  assert (Hsame : filter (fun t => String.eqb (Txn.category t) "Subscriptions")
                    (filter (fun t => String.eqb (Txn.type t) "Debit") txns)
                  = filter (fun t => String.eqb (Txn.category t) "Subscriptions") txns).
  { induction txns as [| t l IH]; [reflexivity|]. cbn.
    assert (IH' := IH (fun t' Ht' => Hdebit t' (or_intror Ht'))).
    destruct (String.eqb_spec (Txn.category t) "Subscriptions") as [Hcat | Hcat].
    - rewrite (Hdebit t (or_introl eq_refl) Hcat). cbn.
      apply String.eqb_eq in Hcat. rewrite Hcat, IH'. reflexivity.
    - destruct (String.eqb (Txn.type t) "Debit"); cbn; [|exact IH'].
      apply String.eqb_neq in Hcat. rewrite Hcat. exact IH'. }
  unfold Dashboard, computeAnalytics, fallback. cbn. rewrite Hsame.
  split; [reflexivity|].
  exact (sum_by_map Subscription.amount as_subscription _).
Qed.

Lemma subscriptions_agree_on_mock :
  map Subscription.desc (Analysis.subscriptions (fallback MOCK_TRANSACTIONS))
  = map Txn.desc (Analytics.subs (computeAnalytics MOCK_TRANSACTIONS)).
Proof.
  destruct (subscriptions_agree_when_debits MOCK_TRANSACTIONS) as (Hsubs & _).
  - intros t Ht Hcat. cbn in Ht.
    repeat (destruct Ht as [<- | Ht]; [first [reflexivity | discriminate Hcat]|]).
    destruct Ht.
  - rewrite Hsubs, map_map. reflexivity.
Defined.

(** ** The insights *)

(** X20: the idle-cash insight is never blank.  It is the backend's
    recommendation when that has any text, and otherwise the sentence the
    dashboard builds around the formatted surplus. *)
Theorem idle_cash_insight_never_blank (a : Analysis.t) :
  let ic := Analysis.idle_cash a in
  exists txt,
    insight "Idle Cash Opportunity" (Dashboard (Some a)) = Some txt
    /\ shown txt = true
    /\ (shown (IdleCash.recommendation ic) = true -> txt = IdleCash.recommendation ic)
    /\ (shown (IdleCash.recommendation ic) = false ->
        txt = [Lit "You have <strong>"; Lit "₹";
               Locale0 (IdleCash.investable_surplus ic);
               Lit "</strong> in investable surplus. Moving to a Liquid Fund could yield <strong>7% annually</strong> vs ~3% in savings."]).
Proof.
  intros ic. unfold insight, Dashboard, text_or. cbn.
  change (Analysis.idle_cash a) with ic.
  destruct (shown (IdleCash.recommendation ic)) eqn:Hrec;
    eexists; (split; [reflexivity|]).
  - split; [exact Hrec|]. split; [reflexivity | discriminate].
  - split; [reflexivity|]. split; [discriminate | reflexivity].
Qed.

(** X21: with no subscription in the result the audit reads "Found 0
    active subscriptions totalling ₹0/month. That's ₹0/year.": the plural
    is used, no list of names follows, and both amounts are zero. *)
Theorem no_subscriptions_audit (a : Analysis.t) :
  Analysis.subscriptions a = [] ->
  let v := Dashboard (Some a) in
  View.subTotal v = 0%float
  /\ insight "Subscription Audit" v
     = Some [Lit "Found <strong>"; Lit "0"; Lit " active subscription"; Lit "s";
             Lit "</strong> totalling <strong>"; Lit "₹"; Locale0 0%float;
             Lit "/month</strong>"; Lit ""; Lit ". That's <strong>";
             Lit "₹"; Locale0 0%float; Lit "/year</strong>."].
Proof.
  intros Hsubs v. unfold v, Dashboard, insight. cbn. rewrite Hsubs.
  split; reflexivity.
Qed.

Lemma no_subscriptions_audit_example :
  View.subTotal (Dashboard (Some (with_categories hundred_then_fifty))) = 0%float.
Proof.
  exact (proj1 (no_subscriptions_audit (with_categories hundred_then_fifty) eq_refl)).
Defined.

(** ** Sample runs and sessions *)

(** Offline: the upload screen is back after 12 ms with the message of
    the failure. *)
Lemma network_failure_offline :
  let r := analyze statement_pdf offline App.init in
  stages r = [(0, PARSING); (12, UPLOAD)]%N
  /\ App.apiError (Run.app r) = "Failed to fetch".
Proof.
  destruct (network_failure_returns_at_once statement_pdf offline App.init _ eq_refl)
    as (Hstages & _ & Herr & _).
  exact (conj Hstages Herr).
Defined.

(** An HTML page behind a 200: back on the upload screen 2 ms after the
    classifying stage came up. *)
Lemma garbled_success_html_page :
  let r := analyze statement_pdf (answers html_page) App.init in
  stages r = [(0, PARSING); (1500, CLASSIFYING); (1502, UPLOAD)]%N
  /\ App.apiError (Run.app r) = "Unexpected token < in JSON at position 0".
Proof.
  destruct (garbled_success_unwinds statement_pdf (answers html_page) App.init
              html_page _ eq_refl eq_refl eq_refl) as (Hstages & Herr & _).
  exact (conj Hstages Herr).
Defined.

(** With a statement chosen, the screen names it and shows no pill. *)
Lemma upload_screen_stays_tidy_chosen :
  let v := UploadStage "" (Upload.mk (Some statement_pdf) "" false) in
  UploadView.error_pill v = None /\ UploadView.disabled v = false.
Proof.
  destruct (upload_screen_stays_tidy pdf_chosen
              (Upload.mk (Some statement_pdf) "" false)
              (reach_step _ _ reach_init) eq_refl) as (Hfile & _).
  destruct (Hfile "oct-2026.pdf" eq_refl) as (Hpill & Hbtn & _).
  exact (conj Hpill Hbtn).
Defined.


(** Offline with a statement chosen: the statement is gone afterwards. *)
Lemma failed_analysis_forgets_file_offline :
  UI.upload (fst (step pdf_chosen (ClickAnalyze offline))) = Some Upload.init.
Proof.
  exact (proj1 (failed_analysis_forgets_file pdf_chosen
                  (Upload.mk (Some statement_pdf) "" false) statement_pdf offline
                  eq_refl eq_refl eq_refl)).
Defined.

(** ** Whole sessions *)

Lemma play_reachable (ui : UI.t) (events : list event) :
  reachable ui -> reachable (fst (play ui events)).
Proof.
  revert ui. induction events as [| e rest IH]; intros ui Hreach; cbn.
  - exact Hreach.
  - apply IH, reach_step, Hreach.
Qed.

(** X11: in a session, whatever the user does and however the backend
    answers, every request that leaves is the upload of a file that
    passed the local test (its name ends in [.pdf] or its type is
    [application/pdf]); and the session ends on a screen at rest. *)
Theorem sessions_upload_only_pdfs (events : list event) :
  Forall (fun q => exists f, q = upload_of f /\ pdf_like f = true)
    (snd (play UI.init events))
  /\ reachable (fst (play UI.init events)).
Proof.
  split; [|apply play_reachable, reach_init].
  generalize reach_init. generalize UI.init as ui.
  induction events as [| e rest IH]; intros ui Hreach; cbn.
  - constructor.
  - apply Forall_app. split.
    + apply Forall_forall. intros q Hq.
      exact (requests_carry_pdfs ui e q Hreach Hq).
    + apply IH, reach_step, Hreach.
Qed.
